(** * CreateOrderService: order creation against a product catalog

    Shallow embedding of
    [src/modules/orders/services/CreateOrderService.ts].

    - JavaScript [number]s that hold quantities and counters are integers
      ([Z]); prices are only ever copied, so their type is left open.
      [JsNumber] repeats the reduction with quantities as IEEE doubles, for
      what happens outside the integers.
    - The three injected repositories are interfaces of the service; they are
      type classes over an abstract store, and every [await]ed call is
      recorded in a trace so that "this call never happens" can be stated.
    - [throw new AppError(..)] is the left summand of the result. *)

From Stdlib Require Import ZArith QArith String List Bool Lia DecimalString.
From Stdlib Require PrimFloat.
Import ListNotations.

Open Scope string_scope.
Open Scope Z_scope.

Set Implicit Arguments.

(** ** Entities and request types *)

(** [interface IProduct { id: string; quantity: number }] *)
Module IProduct.
Record t : Type := mk { id : string; quantity : Z }.
End IProduct.

(** The [Product] entity.  The service reads [id], [quantity] and [price];
    the entity's remaining columns are not declared in this file of the
    repository and are kept together in [rest]. *)
Module Product.
Record t (Price Attrs : Type) : Type :=
  mk { id : string; price : Price; quantity : Z; rest : Attrs }.
Arguments mk {Price Attrs}.

(** [{ ...p, quantity: q }] *)
Definition with_quantity {Price Attrs} (p : t Price Attrs) (q : Z)
  : t Price Attrs :=
  mk (id p) (price p) q (rest p).
End Product.

(** Elements of [IValidation.sanitizedProducts]. *)
Module OrderProduct.
Record t (Price : Type) : Type :=
  mk { product_id : string; quantity : Z; price : Price }.
Arguments mk {Price}.
End OrderProduct.

(** The anonymous [{ first: null | string; quantity: number }] objects. *)
Module Tally.
Record t : Type := mk { first : option string; quantity : Z }.
End Tally.

(** [interface IRequest] *)
Module IRequest.
Record t : Type := mk { customer_id : string; products : list IProduct.t }.
End IRequest.

(** [AppError], thrown with a message only. *)
Record AppError : Type := mkAppError { message : string }.

(** ** JavaScript primitives used by the service *)

(** Truthiness of a [null | string] value: [null] and the empty string are
    falsy. *)
Definition truthy (v : option string) : bool :=
  match v with
  | Some s => negb (String.eqb s "")
  | None => false
  end.

(** Template-literal interpolation of a [null | string] value. *)
Definition interpolate (v : option string) : string :=
  match v with
  | Some s => s
  | None => "null"
  end.

(** Template-literal interpolation of an integer. *)
Definition number_to_string (n : Z) : string :=
  NilZero.string_of_int (Z.to_int n).

(** ** The two error messages built from a tally *)

Definition nonExistentMessage (t : Tally.t) : string :=
  "Could not find product_id '" ++ interpolate (Tally.first t) ++ "'" ++
  (if Tally.quantity t >? 1
   then " and others (" ++ number_to_string (Tally.quantity t - 1) ++
        ") products."
   else ".").

Definition invalidQuantityMessage (t : Tally.t) : string :=
  "The given quantity for the product '" ++ interpolate (Tally.first t) ++
  "' is not available." ++
  (if Tally.quantity t >? 1
   then " Another (" ++ number_to_string (Tally.quantity t - 1) ++
        ") products also exceed the quantity available."
   else "").

(** [acc.t.first = id; acc.t.quantity += 1] *)
Definition record_offender (t : Tally.t) (id : string) : Tally.t :=
  Tally.mk (Some id) (Tally.quantity t + 1).

(** ** The reduction over the requested products *)

Section Validation.
Variables Price Attrs : Type.

(** [interface IValidation] *)
Record IValidation : Type := mkValidation {
  nonExistentProducts : Tally.t;
  invalidQuantityProducts : Tally.t;
  sanitizedProducts : list (OrderProduct.t Price);
  productsToUpdate : list (Product.t Price Attrs)
}.

(** The initial value handed to [reduce]. *)
Definition initialValidation : IValidation :=
  mkValidation (Tally.mk None 0) (Tally.mk None 0) [] [].

(** [existingProducts.find(p => p.id === product.id)] *)
Definition matchProduct (existingProducts : list (Product.t Price Attrs))
           (product : IProduct.t) : option (Product.t Price Attrs) :=
  find (fun p => String.eqb (Product.id p) (IProduct.id product))
       existingProducts.

(** The callback of [products.reduce]. *)
Definition reducer (existingProducts : list (Product.t Price Attrs))
           (acc : IValidation) (product : IProduct.t) : IValidation :=
  match matchProduct existingProducts product with
  | Some m =>
      if IProduct.quantity product >? Product.quantity m then
        mkValidation
          (nonExistentProducts acc)
          (record_offender (invalidQuantityProducts acc) (IProduct.id product))
          (sanitizedProducts acc)
          (productsToUpdate acc)
      else
        mkValidation
          (nonExistentProducts acc)
          (invalidQuantityProducts acc)
          (sanitizedProducts acc ++
             [OrderProduct.mk (IProduct.id product)
                              (IProduct.quantity product)
                              (Product.price m)])
          (productsToUpdate acc ++
             [Product.with_quantity m
                (Product.quantity m - IProduct.quantity product)])
  | None =>
      mkValidation
        (record_offender (nonExistentProducts acc) (IProduct.id product))
        (invalidQuantityProducts acc)
        (sanitizedProducts acc)
        (productsToUpdate acc)
  end.

(** [products.reduce(callback, initial)] *)
Definition validate (existingProducts : list (Product.t Price Attrs))
           (products : list IProduct.t) : IValidation :=
  fold_left (reducer existingProducts) products initialValidation.

(** *** The branches of the callback, per requested line

    The callback takes one of three branches for a line; the predicates
    below name the branch, and [sanitized_line] and [stock_update] give what
    the accepting branch pushes. *)

Definition is_missing (existingProducts : list (Product.t Price Attrs))
           (product : IProduct.t) : bool :=
  match matchProduct existingProducts product with
  | Some _ => false
  | None => true
  end.

Definition exceeds_stock (existingProducts : list (Product.t Price Attrs))
           (product : IProduct.t) : bool :=
  match matchProduct existingProducts product with
  | Some m => IProduct.quantity product >? Product.quantity m
  | None => false
  end.

Definition is_accepted (existingProducts : list (Product.t Price Attrs))
           (product : IProduct.t) : bool :=
  match matchProduct existingProducts product with
  | Some m => negb (IProduct.quantity product >? Product.quantity m)
  | None => false
  end.

Definition sanitized_line (existingProducts : list (Product.t Price Attrs))
           (product : IProduct.t) : list (OrderProduct.t Price) :=
  match matchProduct existingProducts product with
  | Some m =>
      if IProduct.quantity product >? Product.quantity m then []
      else [OrderProduct.mk (IProduct.id product)
                            (IProduct.quantity product)
                            (Product.price m)]
  | None => []
  end.

Definition stock_update (existingProducts : list (Product.t Price Attrs))
           (product : IProduct.t) : list (Product.t Price Attrs) :=
  match matchProduct existingProducts product with
  | Some m =>
      if IProduct.quantity product >? Product.quantity m then []
      else [Product.with_quantity m
              (Product.quantity m - IProduct.quantity product)]
  | None => []
  end.

(** A tally after the given offending lines have been recorded, in order. *)
Definition tally_after (t : Tally.t) (offenders : list IProduct.t) : Tally.t :=
  fold_left record_offender (map IProduct.id offenders) t.

(** Modelled from the spec: one stock update of the catalog collaborator,
    setting the stored quantity of the product with the update's id
    ([updateQuantities(updates: sequence of {id, quantity})]). *)
Definition set_quantity (catalog : list (Product.t Price Attrs))
           (u : Product.t Price Attrs) : list (Product.t Price Attrs) :=
  map (fun p => if String.eqb (Product.id p) (Product.id u)
                then Product.with_quantity p (Product.quantity u)
                else p) catalog.

(** Modelled from the spec: the bulk update applies its updates in order
    ("last-write-wins per product id"). *)
Definition apply_updates (updates catalog : list (Product.t Price Attrs))
  : list (Product.t Price Attrs) :=
  fold_left set_quantity updates catalog.

End Validation.

Arguments initialValidation {Price Attrs}.

(** ** Collaborators, traces and the service monad *)

Section Service.
Context {Price Attrs Customer Order St : Type}.

(** One constructor per repository method the service awaits, with the
    arguments it passes. *)
Inductive Call : Type :=
| CallFindById (id : string)
| CallFindAllById (products : list IProduct.t)
| CallCreate (customer : Customer) (products : list (OrderProduct.t Price))
| CallUpdateQuantity (products : list (Product.t Price Attrs)).

(** [CustomersRepository.findById]: [Customer | undefined]. *)
Class ICustomersRepository : Type := {
  findById : string -> St -> option Customer * St
}.

(** [ProductsRepository.findAllById] and [updateQuantity]; the value
    [updateQuantity] resolves to is discarded by the service. *)
Class IProductsRepository : Type := {
  findAllById : list IProduct.t -> St -> list (Product.t Price Attrs) * St;
  updateQuantity : list (Product.t Price Attrs) -> St -> St
}.

(** [OrdersRepository.create({ customer, products })]. *)
Class IOrdersRepository : Type := {
  create : Customer -> list (OrderProduct.t Price) -> St -> Order * St
}.

(** What a run of the service leaves behind: the value returned or the
    error thrown, the store, and the repository calls made, in order. *)
Record Run (A : Type) : Type := mkRun {
  result : AppError + A;
  store : St;
  calls : list Call
}.

Definition M (A : Type) : Type := St -> Run A.

Definition ret {A} (a : A) : M A :=
  fun s => mkRun (inr a) s [].

Definition throw {A} (e : AppError) : M A :=
  fun s => mkRun (inl e) s [].

Definition bind {A B} (m : M A) (k : A -> M B) : M B :=
  fun s =>
    let r := m s in
    match result r with
    | inl e => mkRun (inl e) (store r) (calls r)
    | inr a =>
        let r' := k a (store r) in
        mkRun (result r') (store r') (calls r ++ calls r')
    end.

(** [await repository.method(args)] *)
Definition await {A} (c : Call) (f : St -> A * St) : M A :=
  fun s => let r := f s in mkRun (inr (fst r)) (snd r) [c].

Notation "x <- m ;; k" := (bind m (fun x => k))
  (at level 100, m at next level, right associativity).

Context {customersRepository : ICustomersRepository}
        {productsRepository : IProductsRepository}
        {ordersRepository : IOrdersRepository}.

(** [CreateOrderService.execute] *)
Definition execute (request : IRequest.t) : M Order :=
  let customer_id := IRequest.customer_id request in
  let products := IRequest.products request in
  customer <- await (CallFindById customer_id) (findById customer_id) ;;
  match customer with
  | None => throw (mkAppError "Customer not found.")
  | Some customer =>
      if (length products =? 0)%nat then
        throw (mkAppError "Less than one product to create an order.")
      else
        existingProducts <-
          await (CallFindAllById products) (findAllById products) ;;
        let v := validate existingProducts products in
        if truthy (Tally.first (nonExistentProducts v)) then
          throw (mkAppError (nonExistentMessage (nonExistentProducts v)))
        else if truthy (Tally.first (invalidQuantityProducts v)) then
          throw (mkAppError
                   (invalidQuantityMessage (invalidQuantityProducts v)))
        else
          order <-
            await (CallCreate customer (sanitizedProducts v))
                  (create customer (sanitizedProducts v)) ;;
          _ <- await (CallUpdateQuantity (productsToUpdate v))
                     (fun s => (tt, updateQuantity (productsToUpdate v) s)) ;;
          ret order
  end.

(** The calls of a trace that write: [create] and [updateQuantity]. *)
Definition is_write (c : Call) : bool :=
  match c with
  | CallCreate _ _ | CallUpdateQuantity _ => true
  | CallFindById _ | CallFindAllById _ => false
  end.

(** The products fetched by [execute] and the store they leave, for a known
    customer: the state of affairs the reduction runs in. *)
Definition lookup_customer (request : IRequest.t) (s : St)
  : option Customer * St :=
  findById (IRequest.customer_id request) s.

Definition fetch_products (request : IRequest.t) (s : St)
  : list (Product.t Price Attrs) * St :=
  findAllById (IRequest.products request) (snd (lookup_customer request s)).

End Service.

(** ** In-memory repositories *)

Module InMemory.

(** Modelled from the spec: the [Customer] entity, which the service only
    looks up and hands on ("identity record; attributes: unique id"). *)
Record Customer : Type := mkCustomer { customer_id : string }.

(** Modelled from the spec: the [Order] entity ("customer reference, ordered
    sequence of OrderLineRecord"). *)
Record Order : Type := mkOrder {
  customer : Customer;
  order_products : list (OrderProduct.t Q)
}.

(** Products carry a rational price and, as remaining attribute, a name. *)
Definition Product : Type := Product.t Q string.

Record Store : Type := mkStore {
  customers : list Customer;
  catalog : list Product;
  orders : list Order
}.

(** Modelled from the spec: the customer lookup, [findById(id) -> Customer |
    absent]. *)
Definition find_customer (id : string) (s : Store) : option Customer * Store :=
  (find (fun c => String.eqb (customer_id c) id) (customers s), s).

(** Modelled from the spec: the catalog batch fetch, [findAllById(ids) ->
    sequence of Product (only existing ones)]. *)
Definition find_products (ids : list IProduct.t) (s : Store)
  : list Product * Store :=
  (filter (fun p => existsb (fun i => String.eqb (IProduct.id i) (Product.id p))
                            ids)
          (catalog s), s).

(** The bulk update of the catalog, by [apply_updates]. *)
Definition update_quantities (us : list Product) (s : Store) : Store :=
  mkStore (customers s) (apply_updates us (catalog s)) (orders s).

(** Modelled from the spec: the order store, [create({customer, lines}) ->
    Order]. *)
Definition create_order (c : Customer) (lines : list (OrderProduct.t Q))
           (s : Store) : Order * Store :=
  let o := mkOrder c lines in
  (o, mkStore (customers s) (catalog s) (orders s ++ [o])).

#[export] Instance customersRepository
  : @ICustomersRepository Customer Store :=
  {| findById := find_customer |}.

#[export] Instance productsRepository
  : @IProductsRepository Q string Store :=
  {| findAllById := find_products; updateQuantity := update_quantities |}.

#[export] Instance ordersRepository
  : @IOrdersRepository Q Customer Order Store :=
  {| create := create_order |}.

(** The scenario of the specification: customer [C1]; [P1] with 5 in stock at
    10.0 and [P2] with 2 in stock at 3.0. *)
Definition C1 : Customer := mkCustomer "C1".
Definition P1 : Product := Product.mk "P1" (10 # 1)%Q 5 "first product".
Definition P2 : Product := Product.mk "P2" (3 # 1)%Q 2 "second product".
Definition shop : Store := mkStore [C1] [P1; P2] [].

Definition line (id : string) (q : Z) : IProduct.t := IProduct.mk id q.
Definition order_for (c : string) (ls : list IProduct.t) : IRequest.t :=
  IRequest.mk c ls.

End InMemory.

(** ** The reduction over IEEE doubles

    The same callback with the two [quantity] fields as JavaScript [number]s
    proper (binary64, with NaN and the infinities) instead of integers, to
    evaluate the quantity test and the subtraction outside the integers. *)

Module JsNumber.
Import PrimFloat.

(** [number] *)
Definition number : Set := float.

(** [a > b]: false as soon as one side is NaN. *)
Definition gt (a b : number) : bool := ltb b a.

(** [interface IProduct { id: string; quantity: number }] *)
Module IProduct.
Record t : Type := mk { id : string; quantity : number }.
End IProduct.

(** The [Product] entity. *)
Module Product.
Record t (Price Attrs : Type) : Type :=
  mk { id : string; price : Price; quantity : number; rest : Attrs }.
Arguments mk {Price Attrs}.

(** [{ ...p, quantity: q }] *)
Definition with_quantity {Price Attrs} (p : t Price Attrs) (q : number)
  : t Price Attrs :=
  mk (id p) (price p) q (rest p).
End Product.

(** Elements of [IValidation.sanitizedProducts]. *)
Module OrderProduct.
Record t (Price : Type) : Type :=
  mk { product_id : string; quantity : number; price : Price }.
Arguments mk {Price}.
End OrderProduct.

Section Validation.
Variables Price Attrs : Type.

(** [interface IValidation] *)
Record IValidation : Type := mkValidation {
  nonExistentProducts : Tally.t;
  invalidQuantityProducts : Tally.t;
  sanitizedProducts : list (OrderProduct.t Price);
  productsToUpdate : list (Product.t Price Attrs)
}.

(** The initial value handed to [reduce]. *)
Definition initialValidation : IValidation :=
  mkValidation (Tally.mk None 0) (Tally.mk None 0) [] [].

(** [existingProducts.find(p => p.id === product.id)] *)
Definition matchProduct (existingProducts : list (Product.t Price Attrs))
           (product : IProduct.t) : option (Product.t Price Attrs) :=
  find (fun p => String.eqb (Product.id p) (IProduct.id product))
       existingProducts.

(** The callback of [products.reduce]. *)
Definition reducer (existingProducts : list (Product.t Price Attrs))
           (acc : IValidation) (product : IProduct.t) : IValidation :=
  match matchProduct existingProducts product with
  | Some m =>
      if gt (IProduct.quantity product) (Product.quantity m) then
        mkValidation
          (nonExistentProducts acc)
          (record_offender (invalidQuantityProducts acc) (IProduct.id product))
          (sanitizedProducts acc)
          (productsToUpdate acc)
      else
        mkValidation
          (nonExistentProducts acc)
          (invalidQuantityProducts acc)
          (sanitizedProducts acc ++
             [OrderProduct.mk (IProduct.id product)
                              (IProduct.quantity product)
                              (Product.price m)])
          (productsToUpdate acc ++
             [Product.with_quantity m
                (sub (Product.quantity m) (IProduct.quantity product))])
  | None =>
      mkValidation
        (record_offender (nonExistentProducts acc) (IProduct.id product))
        (invalidQuantityProducts acc)
        (sanitizedProducts acc)
        (productsToUpdate acc)
  end.

(** [products.reduce(callback, initial)] *)
Definition validate (existingProducts : list (Product.t Price Attrs))
           (products : list IProduct.t) : IValidation :=
  fold_left (reducer existingProducts) products initialValidation.

End Validation.

(** [0 <= quantity] on a stock update. *)
Definition nonnegative {Price Attrs} (u : Product.t Price Attrs) : bool :=
  leb zero (Product.quantity u).

(** A catalog entry with 5 in stock at 10.0, and a line asking for NaN of
    it. *)
Definition P1 : Product.t number string :=
  Product.mk "P1" 10%float 5%float "first product".
Definition nan_line : IProduct.t := IProduct.mk "P1" nan.

End JsNumber.

(** * Properties of the reduction *)

Section ValidationFacts.
Context {Price Attrs : Type}.
Variable existingProducts : list (Product.t Price Attrs).

Local Ltac branches p :=
  unfold reducer, is_missing, exceeds_stock, is_accepted,
    sanitized_line, stock_update;
  destruct (matchProduct existingProducts p) as [?m|] eqn:?Hm;
  [ destruct (IProduct.quantity p >? Product.quantity m) eqn:?Hq | ].

(** [find] returns an entry of the fetched list carrying the requested id. *)
Lemma matchProduct_Some (p : IProduct.t) (m : Product.t Price Attrs) :
  matchProduct existingProducts p = Some m ->
  In m existingProducts /\ Product.id m = IProduct.id p.
Proof.
  unfold matchProduct. intros H. apply find_some in H.
  destruct H as [Hin Heq]. apply String.eqb_eq in Heq. auto.
Qed.

(** The match depends on the requested id only. *)
Lemma matchProduct_same_id (p q : IProduct.t) :
  IProduct.id p = IProduct.id q ->
  matchProduct existingProducts p = matchProduct existingProducts q.
Proof. unfold matchProduct. intros ->. reflexivity. Qed.

(** The look-up finds nothing exactly when no fetched entry has the id. *)
Lemma matchProduct_None_iff (p : IProduct.t) :
  matchProduct existingProducts p = None <->
  (forall m, In m existingProducts -> Product.id m <> IProduct.id p).
Proof.
  unfold matchProduct. split.
  - intros H m Hin Hid.
    apply (find_none _ _ H) in Hin. apply String.eqb_neq in Hin. auto.
  - intros H. induction existingProducts as [|m ms IH]; [reflexivity|].
    cbn [find].
    destruct (String.eqb_spec (Product.id m) (IProduct.id p)) as [E|_].
    + exfalso. apply (H m); [left; reflexivity | exact E].
    + apply IH. intros m' Hm'. apply H. right. exact Hm'.
Qed.

(** The look-up finds [m] exactly when [m] is the first fetched entry with
    the id. *)
Lemma matchProduct_Some_iff (p : IProduct.t) (m : Product.t Price Attrs) :
  matchProduct existingProducts p = Some m <->
  (exists before after,
      existingProducts = (before ++ m :: after)%list /\
      (forall m', In m' before -> Product.id m' <> IProduct.id p) /\
      Product.id m = IProduct.id p).
Proof.
  unfold matchProduct. split.
  - induction existingProducts as [|m0 ms IH]; [discriminate|].
    cbn [find].
    destruct (String.eqb_spec (Product.id m0) (IProduct.id p)) as [E|N].
    + intros H. injection H as <-. exists [], ms.
      split; [reflexivity|]. split; [intros m' []|exact E].
    + intros H. destruct (IH H) as (before & after & -> & Hb & Hid).
      exists (m0 :: before), after. split; [reflexivity|].
      split; [|exact Hid]. intros m' [<-|Hm']; auto.
  - intros (before & after & -> & Hb & Hid).
    induction before as [|m0 before IH]; cbn [app find].
    + apply String.eqb_eq in Hid. rewrite Hid. reflexivity.
    + assert (N : Product.id m0 <> IProduct.id p)
        by (apply Hb; left; reflexivity).
      apply String.eqb_neq in N. rewrite N.
      apply IH. intros m' Hm'. apply Hb. right. exact Hm'.
Qed.

(** One step of the reduction, component by component. *)
Lemma reducer_components (acc : IValidation Price Attrs) (p : IProduct.t) :
  reducer existingProducts acc p =
  mkValidation
    (if is_missing existingProducts p
     then record_offender (nonExistentProducts acc) (IProduct.id p)
     else nonExistentProducts acc)
    (if exceeds_stock existingProducts p
     then record_offender (invalidQuantityProducts acc) (IProduct.id p)
     else invalidQuantityProducts acc)
    (sanitizedProducts acc ++ sanitized_line existingProducts p)
    (productsToUpdate acc ++ stock_update existingProducts p).
Proof.
  branches p; rewrite ?app_nil_r; reflexivity.
Qed.

Lemma tally_after_cons (t : Tally.t) (p : IProduct.t) (ps : list IProduct.t) :
  tally_after t (p :: ps) =
  tally_after (record_offender t (IProduct.id p)) ps.
Proof. reflexivity. Qed.

(** The whole reduction from an arbitrary accumulator. *)
Lemma fold_reducer (ps : list IProduct.t) :
  forall acc : IValidation Price Attrs,
    fold_left (reducer existingProducts) ps acc =
    mkValidation
      (tally_after (nonExistentProducts acc)
                   (filter (is_missing existingProducts) ps))
      (tally_after (invalidQuantityProducts acc)
                   (filter (exceeds_stock existingProducts) ps))
      (sanitizedProducts acc ++ flat_map (sanitized_line existingProducts) ps)
      (productsToUpdate acc ++ flat_map (stock_update existingProducts) ps).
Proof.
  induction ps as [|p ps IH]; intros acc.
  - simpl. rewrite !app_nil_r. destruct acc; reflexivity.
  - cbn [fold_left filter flat_map]. rewrite IH, reducer_components.
    cbn [nonExistentProducts invalidQuantityProducts sanitizedProducts
         productsToUpdate].
    rewrite <- !app_assoc.
    destruct (is_missing existingProducts p),
             (exceeds_stock existingProducts p);
      rewrite ?tally_after_cons; reflexivity.
Qed.

(** A tally counts the recorded lines and keeps the id recorded last. *)
Lemma tally_after_quantity (offenders : list IProduct.t) :
  forall t,
    Tally.quantity (tally_after t offenders) =
    Tally.quantity t + Z.of_nat (length offenders).
Proof.
  induction offenders as [|p ps IH]; intros t.
  - cbn. lia.
  - rewrite tally_after_cons, IH. cbn [record_offender Tally.quantity length].
    lia.
Qed.

Lemma tally_after_first (offenders : list IProduct.t) :
  forall t,
    Tally.first (tally_after t offenders) =
    match rev offenders with
    | [] => Tally.first t
    | p :: _ => Some (IProduct.id p)
    end.
Proof.
  induction offenders as [|p ps IH]; intros t.
  - reflexivity.
  - rewrite tally_after_cons, IH. cbn [rev].
    destruct (rev ps); reflexivity.
Qed.

(** The three branches exclude one another and cover every line. *)
Lemma branches_partition (p : IProduct.t) :
  (is_missing existingProducts p = true /\
   exceeds_stock existingProducts p = false /\
   is_accepted existingProducts p = false) \/
  (is_missing existingProducts p = false /\
   exceeds_stock existingProducts p = true /\
   is_accepted existingProducts p = false) \/
  (is_missing existingProducts p = false /\
   exceeds_stock existingProducts p = false /\
   is_accepted existingProducts p = true).
Proof. branches p; cbn; auto. Qed.

Lemma filter_partition_length (ps : list IProduct.t) :
  (length (filter (is_missing existingProducts) ps) +
   length (filter (exceeds_stock existingProducts) ps) +
   length (filter (is_accepted existingProducts) ps))%nat = length ps.
Proof.
  induction ps as [|p ps IH]; [reflexivity|].
  cbn [filter length].
  destruct (branches_partition p) as [(-> & -> & ->)|[(-> & -> & ->)|(-> & -> & ->)]];
    cbn [length]; lia.
Qed.

Lemma sanitized_line_accepted (p : IProduct.t) :
  sanitized_line existingProducts p =
  if is_accepted existingProducts p
  then match matchProduct existingProducts p with
       | Some m => [OrderProduct.mk (IProduct.id p) (IProduct.quantity p)
                                    (Product.price m)]
       | None => []
       end
  else [].
Proof. branches p; reflexivity. Qed.

Lemma stock_update_accepted (p : IProduct.t) :
  stock_update existingProducts p =
  if is_accepted existingProducts p
  then match matchProduct existingProducts p with
       | Some m => [Product.with_quantity m
                      (Product.quantity m - IProduct.quantity p)]
       | None => []
       end
  else [].
Proof. branches p; reflexivity. Qed.

End ValidationFacts.

(** ** What the accepting branch pushes *)

Section AcceptedLines.
Context {Price Attrs : Type}.
Variable existingProducts : list (Product.t Price Attrs).

(** Every computed stock update comes from a requested line that matched a
    fetched product and did not exceed its quantity. *)
Lemma In_stock_updates (ps : list IProduct.t) (u : Product.t Price Attrs) :
  In u (flat_map (stock_update existingProducts) ps) ->
  exists p m,
    In p ps /\ matchProduct existingProducts p = Some m /\
    IProduct.quantity p <= Product.quantity m /\
    u = Product.with_quantity m (Product.quantity m - IProduct.quantity p).
Proof.
  intros H. apply in_flat_map in H. destruct H as (p & Hp & Hu).
  unfold stock_update in Hu.
  destruct (matchProduct existingProducts p) as [m|] eqn:Hm; [|contradiction].
  destruct (IProduct.quantity p >? Product.quantity m) eqn:Hq; [contradiction|].
  destruct Hu as [<-|[]]. exists p, m. repeat split; auto.
  rewrite Z.gtb_ltb, Z.ltb_ge in Hq. exact Hq.
Qed.

Lemma validate_stock_updates (ps : list IProduct.t) :
  productsToUpdate (validate existingProducts ps) =
  flat_map (stock_update existingProducts) ps.
Proof. unfold validate. rewrite fold_reducer. reflexivity. Qed.

Lemma validate_sanitized (ps : list IProduct.t) :
  sanitizedProducts (validate existingProducts ps) =
  flat_map (sanitized_line existingProducts) ps.
Proof. unfold validate. rewrite fold_reducer. reflexivity. Qed.

Lemma validate_nonExistent (ps : list IProduct.t) :
  nonExistentProducts (validate existingProducts ps) =
  tally_after (Tally.mk None 0) (filter (is_missing existingProducts) ps).
Proof. unfold validate. rewrite fold_reducer. reflexivity. Qed.

Lemma validate_invalidQuantity (ps : list IProduct.t) :
  invalidQuantityProducts (validate existingProducts ps) =
  tally_after (Tally.mk None 0) (filter (exceeds_stock existingProducts) ps).
Proof. unfold validate. rewrite fold_reducer. reflexivity. Qed.

Lemma accepted_lines_length (ps : list IProduct.t) :
  length (flat_map (sanitized_line existingProducts) ps) =
  length (filter (is_accepted existingProducts) ps) /\
  length (flat_map (stock_update existingProducts) ps) =
  length (filter (is_accepted existingProducts) ps).
Proof.
  induction ps as [|p ps [IH1 IH2]]; [split; reflexivity|].
  cbn [flat_map filter]. rewrite !length_app, IH1, IH2.
  rewrite sanitized_line_accepted, stock_update_accepted.
  unfold is_accepted.
  destruct (matchProduct existingProducts p) as [m|]; [|split; reflexivity].
  destruct (negb _); split; reflexivity.
Qed.

(** The id a tally ends with is the id of the offending line met last. *)
Lemma validate_first_is_last_offender (ps : list IProduct.t) :
  Tally.first (nonExistentProducts (validate existingProducts ps)) =
  match rev (filter (is_missing existingProducts) ps) with
  | [] => None
  | p :: _ => Some (IProduct.id p)
  end /\
  Tally.first (invalidQuantityProducts (validate existingProducts ps)) =
  match rev (filter (exceeds_stock existingProducts) ps) with
  | [] => None
  | p :: _ => Some (IProduct.id p)
  end.
Proof.
  rewrite validate_nonExistent, validate_invalidQuantity, !tally_after_first.
  split; reflexivity.
Qed.

(** When every line matches and fits, nothing is tallied and the two lists
    follow the request line by line. *)
Lemma all_lines_accepted (ps : list IProduct.t) :
  (forall p, In p ps ->
     exists m, matchProduct existingProducts p = Some m /\
               IProduct.quantity p <= Product.quantity m) ->
  filter (is_missing existingProducts) ps = [] /\
  filter (exceeds_stock existingProducts) ps = [] /\
  Forall2 (fun p l =>
             exists m, matchProduct existingProducts p = Some m /\
                       l = OrderProduct.mk (IProduct.id p)
                                           (IProduct.quantity p)
                                           (Product.price m))
          ps (flat_map (sanitized_line existingProducts) ps) /\
  Forall2 (fun p u =>
             exists m, matchProduct existingProducts p = Some m /\
                       u = Product.with_quantity m
                             (Product.quantity m - IProduct.quantity p))
          ps (flat_map (stock_update existingProducts) ps).
Proof.
  induction ps as [|p ps IH]; intros Hall.
  - repeat split; constructor.
  - destruct IH as (IH1 & IH2 & IH3 & IH4).
    { intros q Hq. apply Hall. right. exact Hq. }
    destruct (Hall p (or_introl eq_refl)) as (m & Hm & Hle).
    assert (Hq : (IProduct.quantity p >? Product.quantity m) = false).
    { rewrite Z.gtb_ltb. apply Z.ltb_ge. exact Hle. }
    cbn [filter flat_map].
    unfold is_missing at 1, exceeds_stock at 1, sanitized_line at 1,
      stock_update at 1.
    rewrite Hm, Hq. cbn [app].
    repeat split; auto; constructor; eauto.
Qed.

End AcceptedLines.

(** ** The bulk update applied to a catalog *)

Section BulkUpdate.
Context {Price Attrs : Type}.

Lemma set_quantity_In (catalog : list (Product.t Price Attrs))
      (u p : Product.t Price Attrs) :
  In p (set_quantity catalog u) ->
  exists p0, In p0 catalog /\ Product.id p0 = Product.id p /\
             (Product.id p = Product.id u ->
              Product.quantity p = Product.quantity u) /\
             (Product.id p <> Product.id u -> p = p0).
Proof.
  unfold set_quantity. intros H. apply in_map_iff in H.
  destruct H as (p0 & Hp & Hin). exists p0.
  destruct (String.eqb_spec (Product.id p0) (Product.id u)) as [Heq|Hne];
    subst p; cbn; repeat split; auto; congruence.
Qed.

(** Updates for other ids leave the quantity stored for an id alone. *)
Lemma apply_updates_other_ids (i : string) (q : Z)
      (us : list (Product.t Price Attrs)) :
  (forall u, In u us -> Product.id u <> i) ->
  forall catalog,
    (forall p, In p catalog -> Product.id p = i -> Product.quantity p = q) ->
    forall p, In p (apply_updates us catalog) ->
              Product.id p = i -> Product.quantity p = q.
Proof.
  unfold apply_updates.
  induction us as [|u us IH]; intros Hus catalog Hcat p Hin Hid.
  - apply Hcat; assumption.
  - cbn [fold_left] in Hin.
    apply (IH (fun v Hv => Hus v (or_intror Hv)) (set_quantity catalog u));
      auto.
    intros p1 Hp1 Hid1. apply set_quantity_In in Hp1.
    destruct Hp1 as (p0 & Hp0 & Hid0 & _ & Hsame).
    assert (Hne : Product.id p1 <> Product.id u).
    { rewrite Hid1. intros E. apply (Hus u (or_introl eq_refl)). auto. }
    rewrite (Hsame Hne). apply Hcat; auto. congruence.
Qed.

(** Non-negative updates keep a non-negative catalog non-negative. *)
Lemma apply_updates_nonneg (us : list (Product.t Price Attrs)) :
  Forall (fun u => 0 <= Product.quantity u) us ->
  forall catalog,
    Forall (fun p => 0 <= Product.quantity p) catalog ->
    Forall (fun p => 0 <= Product.quantity p) (apply_updates us catalog).
Proof.
  unfold apply_updates.
  induction 1 as [|u us Hu _ IH]; intros catalog Hcat; [exact Hcat|].
  cbn [fold_left]. apply IH. unfold set_quantity.
  apply Forall_map. revert Hcat. apply Forall_impl. intros p Hp.
  destruct (String.eqb (Product.id p) (Product.id u)); cbn; assumption.
Qed.

(** After the bulk update, the quantity stored for an id is that of the
    last update carrying the id. *)
Lemma apply_updates_last_wins (us1 us2 : list (Product.t Price Attrs))
      (u : Product.t Price Attrs) :
  (forall v, In v us2 -> Product.id v <> Product.id u) ->
  forall catalog p,
    In p (apply_updates (us1 ++ u :: us2) catalog) ->
    Product.id p = Product.id u ->
    Product.quantity p = Product.quantity u.
Proof.
  intros Hus2 catalog p. unfold apply_updates.
  rewrite fold_left_app. cbn [fold_left].
  intros Hin Hid.
  eapply apply_updates_other_ids; [exact Hus2 | | exact Hin | exact Hid].
  intros p1 Hp1 Hid1. apply set_quantity_In in Hp1.
  destruct Hp1 as (_ & _ & _ & Hset & _). auto.
Qed.

End BulkUpdate.

(** ** Classification of the requested lines *)

Section Classification.
Context {Price Attrs : Type}.
Variable existingProducts : list (Product.t Price Attrs).

(** C5: every requested line takes exactly one of three branches of the
    reduction, presence in the fetched catalog being tested first.  A line
    whose id no fetched entry carries only bumps the non-existent tally,
    whatever its quantity; a line whose quantity exceeds that of the first
    fetched entry carrying its id only bumps the invalid-quantity tally; any
    other line (equal quantity included) is appended to both
    [sanitizedProducts] and [productsToUpdate] and bumps no tally.  The three
    classes, read on the fetched list itself, exclude one another and cover
    every line, and over a whole request the two counters and the two lists
    have their sizes. *)
Theorem validate_classifies_each_line (ps : list IProduct.t) :
  let v := validate existingProducts ps in
  (forall acc p,
      (forall m, In m existingProducts -> Product.id m <> IProduct.id p) ->
      reducer existingProducts acc p =
      mkValidation
        (Tally.mk (Some (IProduct.id p))
                  (Tally.quantity (nonExistentProducts acc) + 1))
        (invalidQuantityProducts acc)
        (sanitizedProducts acc) (productsToUpdate acc)) /\
  (forall acc p before m after,
      existingProducts = (before ++ m :: after)%list ->
      (forall m', In m' before -> Product.id m' <> IProduct.id p) ->
      Product.id m = IProduct.id p ->
      IProduct.quantity p > Product.quantity m ->
      reducer existingProducts acc p =
      mkValidation
        (nonExistentProducts acc)
        (Tally.mk (Some (IProduct.id p))
                  (Tally.quantity (invalidQuantityProducts acc) + 1))
        (sanitizedProducts acc) (productsToUpdate acc)) /\
  (forall acc p before m after,
      existingProducts = (before ++ m :: after)%list ->
      (forall m', In m' before -> Product.id m' <> IProduct.id p) ->
      Product.id m = IProduct.id p ->
      IProduct.quantity p <= Product.quantity m ->
      reducer existingProducts acc p =
      mkValidation
        (nonExistentProducts acc) (invalidQuantityProducts acc)
        (sanitizedProducts acc ++
           [OrderProduct.mk (IProduct.id p) (IProduct.quantity p)
                            (Product.price m)])
        (productsToUpdate acc ++
           [Product.mk (Product.id m) (Product.price m)
                       (Product.quantity m - IProduct.quantity p)
                       (Product.rest m)])) /\
  (forall p,
      is_missing existingProducts p = true <->
      (forall m, In m existingProducts -> Product.id m <> IProduct.id p)) /\
  (forall p,
      exceeds_stock existingProducts p = true <->
      (exists before m after,
          existingProducts = (before ++ m :: after)%list /\
          (forall m', In m' before -> Product.id m' <> IProduct.id p) /\
          Product.id m = IProduct.id p /\
          IProduct.quantity p > Product.quantity m)) /\
  (forall p,
      is_accepted existingProducts p = true <->
      (exists before m after,
          existingProducts = (before ++ m :: after)%list /\
          (forall m', In m' before -> Product.id m' <> IProduct.id p) /\
          Product.id m = IProduct.id p /\
          IProduct.quantity p <= Product.quantity m)) /\
  Tally.quantity (nonExistentProducts v) =
    Z.of_nat (length (filter (is_missing existingProducts) ps)) /\
  Tally.quantity (invalidQuantityProducts v) =
    Z.of_nat (length (filter (exceeds_stock existingProducts) ps)) /\
  length (sanitizedProducts v) =
    length (filter (is_accepted existingProducts) ps) /\
  length (productsToUpdate v) =
    length (filter (is_accepted existingProducts) ps) /\
  Tally.quantity (nonExistentProducts v) +
  Tally.quantity (invalidQuantityProducts v) +
  Z.of_nat (length (sanitizedProducts v)) = Z.of_nat (length ps).
Proof.
  cbn zeta.
  assert (Hne := validate_nonExistent existingProducts ps).
  assert (Hiq := validate_invalidQuantity existingProducts ps).
  assert (Hlen := accepted_lines_length existingProducts ps).
  assert (Hpart := filter_partition_length existingProducts ps).
  assert (Hfound : forall p before m after,
             existingProducts = (before ++ m :: after)%list ->
             (forall m', In m' before -> Product.id m' <> IProduct.id p) ->
             Product.id m = IProduct.id p ->
             matchProduct existingProducts p = Some m).
  { intros p before m after E Hb Hid. apply matchProduct_Some_iff.
    exists before, after. auto. }
  rewrite validate_sanitized, validate_stock_updates, Hne, Hiq.
  rewrite !tally_after_quantity. cbn [Tally.quantity].
  destruct Hlen as [-> ->].
  repeat match goal with |- _ /\ _ => split end; try lia.
  - intros acc p Hnone. apply matchProduct_None_iff in Hnone.
    unfold reducer. rewrite Hnone. reflexivity.
  - intros acc p before m after E Hb Hid Hgt.
    unfold reducer. rewrite (Hfound p before m after E Hb Hid).
    apply Z.gtb_gt in Hgt. rewrite Hgt. reflexivity.
  - intros acc p before m after E Hb Hid Hle.
    unfold reducer. rewrite (Hfound p before m after E Hb Hid).
    rewrite Z.gtb_ltb. apply Z.ltb_ge in Hle. rewrite Hle. reflexivity.
  - intros p. rewrite <- matchProduct_None_iff. unfold is_missing.
    destruct (matchProduct existingProducts p); split;
      (reflexivity || discriminate).
  - intros p. unfold exceeds_stock. split.
    + destruct (matchProduct existingProducts p) as [m|] eqn:Hm;
        [|discriminate].
      intros Hgt. apply Z.gtb_gt in Hgt.
      apply matchProduct_Some_iff in Hm.
      destruct Hm as (before & after & E & Hb & Hid).
      exists before, m, after. auto.
    + intros (before & m & after & E & Hb & Hid & Hgt).
      rewrite (Hfound p before m after E Hb Hid).
      apply Z.gtb_gt. exact Hgt.
  - intros p. unfold is_accepted. split.
    + destruct (matchProduct existingProducts p) as [m|] eqn:Hm;
        [|discriminate].
      intros Hle. apply negb_true_iff in Hle.
      rewrite Z.gtb_ltb, Z.ltb_ge in Hle.
      apply matchProduct_Some_iff in Hm.
      destruct Hm as (before & after & E & Hb & Hid).
      exists before, m, after. auto.
    + intros (before & m & after & E & Hb & Hid & Hle).
      rewrite (Hfound p before m after E Hb Hid).
      apply negb_true_iff. rewrite Z.gtb_ltb, Z.ltb_ge. exact Hle.
Qed.

(** C6: two accepted lines for one product id are each turned into a stock
    update computed from the quantity originally fetched for that product,
    never from the result of the other line; the list handed to the bulk
    update holds both, in request order, and under the in-order bulk update
    the quantity left in the catalog for that id is the one computed for the
    last such line. *)
Theorem duplicate_lines_not_cumulative
        (l1 l2 l3 : list IProduct.t) (a b : IProduct.t)
        (m : Product.t Price Attrs) :
  IProduct.id a = IProduct.id b ->
  matchProduct existingProducts a = Some m ->
  IProduct.quantity a <= Product.quantity m ->
  IProduct.quantity b <= Product.quantity m ->
  let updates :=
    productsToUpdate
      (validate existingProducts (l1 ++ a :: l2 ++ b :: l3)) in
  updates =
    (productsToUpdate (validate existingProducts l1) ++
     Product.with_quantity m (Product.quantity m - IProduct.quantity a) ::
     productsToUpdate (validate existingProducts l2) ++
     Product.with_quantity m (Product.quantity m - IProduct.quantity b) ::
     productsToUpdate (validate existingProducts l3))%list /\
  ((forall c, In c l3 -> IProduct.id c <> IProduct.id b) ->
   forall catalog p,
     In p (apply_updates updates catalog) ->
     Product.id p = IProduct.id b ->
     Product.quantity p = Product.quantity m - IProduct.quantity b).
Proof.
  intros Hid Hma Hla Hlb updates.
  assert (Hmb : matchProduct existingProducts b = Some m).
  { rewrite <- (matchProduct_same_id existingProducts a b Hid). exact Hma. }
  assert (Hupd : forall p, matchProduct existingProducts p = Some m ->
                           IProduct.quantity p <= Product.quantity m ->
                           stock_update existingProducts p =
                           [Product.with_quantity m
                              (Product.quantity m - IProduct.quantity p)]).
  { intros p Hm Hle. unfold stock_update. rewrite Hm, Z.gtb_ltb.
    apply Z.ltb_ge in Hle. rewrite Hle. reflexivity. }
  assert (Heq : updates =
    (productsToUpdate (validate existingProducts l1) ++
     Product.with_quantity m (Product.quantity m - IProduct.quantity a) ::
     productsToUpdate (validate existingProducts l2) ++
     Product.with_quantity m (Product.quantity m - IProduct.quantity b) ::
     productsToUpdate (validate existingProducts l3))%list).
  { subst updates. rewrite !validate_stock_updates.
    rewrite flat_map_app. cbn [flat_map]. rewrite flat_map_app.
    cbn [flat_map]. rewrite (Hupd a Hma Hla), (Hupd b Hmb Hlb).
    reflexivity. }
  split; [exact Heq|].
  intros Hlast catalog p Hin Hp.
  rewrite Heq in Hin.
  rewrite app_comm_cons, app_assoc in Hin.
  destruct (matchProduct_Some existingProducts b Hmb) as [_ Hidm].
  apply apply_updates_last_wins in Hin; [exact Hin | | cbn; congruence].
  intros u Hu. rewrite validate_stock_updates in Hu.
  apply In_stock_updates in Hu.
  destruct Hu as (c & mc & Hc & Hmc & _ & ->).
  destruct (matchProduct_Some existingProducts c Hmc) as [_ Hidc].
  cbn. rewrite Hidc, Hidm. apply Hlast. exact Hc.
Qed.

(** C9 (amended): a line with a zero or negative quantity whose product was
    fetched with a non-negative quantity is not rejected by the quantity
    test: it is accepted like any line that fits, tallied nowhere, with its
    quantity copied into the sanitized line and a stock update of the fetched
    quantity minus the requested one, which is at least the fetched
    quantity. *)
Theorem nonpositive_quantity_is_accepted
        (acc : IValidation Price Attrs) (p : IProduct.t)
        (m : Product.t Price Attrs) :
  matchProduct existingProducts p = Some m ->
  IProduct.quantity p <= 0 ->
  0 <= Product.quantity m ->
  reducer existingProducts acc p =
  mkValidation
    (nonExistentProducts acc) (invalidQuantityProducts acc)
    (sanitizedProducts acc ++
       [OrderProduct.mk (IProduct.id p) (IProduct.quantity p)
                        (Product.price m)])
    (productsToUpdate acc ++
       [Product.with_quantity m
          (Product.quantity m - IProduct.quantity p)]) /\
  exceeds_stock existingProducts p = false /\
  Product.quantity m <= Product.quantity m - IProduct.quantity p.
Proof.
  intros Hm Hq Hstock.
  assert (Hgt : (IProduct.quantity p >? Product.quantity m) = false).
  { rewrite Z.gtb_ltb. apply Z.ltb_ge. lia. }
  unfold reducer, exceeds_stock. rewrite Hm, Hgt.
  split; [reflexivity | split; [reflexivity | lia]].
Qed.

End Classification.

(** * Properties of [execute] *)

Section ServiceFacts.
Context {Price Attrs Customer Order St : Type}.
Context {customersRepository : @ICustomersRepository Customer St}
        {productsRepository : @IProductsRepository Price Attrs St}
        {ordersRepository : @IOrdersRepository Price Customer Order St}.

(** The run of [execute] with the monad unfolded: the four places where it
    throws and the one where it returns, each with its store and trace. *)
Lemma execute_run (request : IRequest.t) (s : St) :
  let cid := IRequest.customer_id request in
  let ps := IRequest.products request in
  let s1 := snd (lookup_customer request s) in
  let ex := fst (fetch_products request s) in
  let s2 := snd (fetch_products request s) in
  let v := validate ex ps in
  execute request s =
  match fst (lookup_customer request s) with
  | None =>
      mkRun (inl (mkAppError "Customer not found.")) s1 [CallFindById cid]
  | Some customer =>
      match ps with
      | [] =>
          mkRun (inl (mkAppError "Less than one product to create an order."))
                s1 [CallFindById cid]
      | _ :: _ =>
          if truthy (Tally.first (nonExistentProducts v)) then
            mkRun (inl (mkAppError (nonExistentMessage (nonExistentProducts v))))
                  s2 [CallFindById cid; CallFindAllById ps]
          else if truthy (Tally.first (invalidQuantityProducts v)) then
            mkRun (inl (mkAppError
                          (invalidQuantityMessage (invalidQuantityProducts v))))
                  s2 [CallFindById cid; CallFindAllById ps]
          else
            let created := create customer (sanitizedProducts v) s2 in
            mkRun (inr (fst created))
                  (updateQuantity (productsToUpdate v) (snd created))
                  [CallFindById cid; CallFindAllById ps;
                   CallCreate customer (sanitizedProducts v);
                   CallUpdateQuantity (productsToUpdate v)]
      end
  end.
Proof.
  unfold execute, fetch_products, lookup_customer, bind, await, throw, ret.
  cbn zeta. cbn [result store calls].
  destruct (findById (IRequest.customer_id request) s) as [[customer|] s1];
    cbn [fst snd]; [|reflexivity].
  destruct (IRequest.products request) as [|p ps] eqn:Hps;
    cbn [length Nat.eqb]; [reflexivity|].
  cbn [result store calls fst snd].
  destruct (findAllById (p :: ps) s1) as [ex s2]; cbn [fst snd].
  destruct (truthy _); cbn [result store calls]; [reflexivity|].
  destruct (truthy _); cbn [result store calls]; reflexivity.
Qed.

Local Ltac run_cases request s :=
  let Hrun := fresh "Hrun" in
  pose proof (execute_run request s) as Hrun; cbn zeta in Hrun;
  rewrite Hrun in *; clear Hrun;
  destruct (fst (lookup_customer request s)) as [?customer|] eqn:?Hcustomer;
  [ destruct (IRequest.products request) as [|?p ?ps] eqn:?Hproducts;
    [ | destruct (truthy (Tally.first (nonExistentProducts _))) eqn:?Hmissing;
        [ | destruct (truthy (Tally.first (invalidQuantityProducts _)))
              eqn:?Hexceeds ] ]
  | ].

(** The list handed to [updateQuantity] is the [productsToUpdate] of the
    reduction over the fetched products. *)
Lemma execute_update_call (request : IRequest.t) (s : St)
      (us : list (Product.t Price Attrs)) :
  In (CallUpdateQuantity us) (calls (execute request s)) ->
  us = productsToUpdate
         (validate (fst (fetch_products request s))
                   (IRequest.products request)).
Proof.
  intros Hin. run_cases request s; cbn [calls In] in Hin;
    repeat match type of Hin with
           | _ \/ _ => destruct Hin as [Hin|Hin]
           end;
    try discriminate Hin; try contradiction.
  injection Hin as <-. reflexivity.
Qed.

(** Success: what is created, what is updated, what is returned. *)
Lemma execute_accepts (request : IRequest.t) (s : St) (customer : Customer) :
  let ps := IRequest.products request in
  let ex := fst (fetch_products request s) in
  let s2 := snd (fetch_products request s) in
  fst (lookup_customer request s) = Some customer ->
  ps <> [] ->
  (forall p, In p ps ->
     exists m, matchProduct ex p = Some m /\
               IProduct.quantity p <= Product.quantity m) ->
  exists lines updates,
    Forall2 (fun p l =>
               exists m, matchProduct ex p = Some m /\
                         l = OrderProduct.mk (IProduct.id p)
                                             (IProduct.quantity p)
                                             (Product.price m))
            ps lines /\
    Forall2 (fun p u =>
               exists m, matchProduct ex p = Some m /\
                         u = Product.with_quantity m
                               (Product.quantity m - IProduct.quantity p))
            ps updates /\
    execute request s =
    mkRun (inr (fst (create customer lines s2)))
          (updateQuantity updates (snd (create customer lines s2)))
          [CallFindById (IRequest.customer_id request);
           CallFindAllById ps;
           CallCreate customer lines;
           CallUpdateQuantity updates].
Proof.
  intros ps ex s2 Hcustomer Hne Hall. subst ps ex s2.
  destruct (all_lines_accepted _ _ Hall) as (Hmiss & Hexc & Hlines & Hupd).
  exists (flat_map (sanitized_line (fst (fetch_products request s)))
                   (IRequest.products request)),
         (flat_map (stock_update (fst (fetch_products request s)))
                   (IRequest.products request)).
  split; [exact Hlines|]. split; [exact Hupd|].
  pose proof (execute_run request s) as Hrun. cbn zeta in Hrun.
  rewrite Hrun, Hcustomer. clear Hrun.
  rewrite validate_nonExistent, validate_invalidQuantity,
    validate_sanitized, validate_stock_updates, Hmiss, Hexc.
  destruct (IRequest.products request); [congruence|]. reflexivity.
Qed.

(** X4: with a known customer and non-empty ids throughout the request, a
    line without a fetched product makes [execute] throw the
    product-not-found error, whatever the other lines are (lines exceeding
    the fetched quantity included). *)
Lemma missing_product_throws (request : IRequest.t) (s : St)
      (customer : Customer) (p : IProduct.t) :
  let ps := IRequest.products request in
  let ex := fst (fetch_products request s) in
  fst (lookup_customer request s) = Some customer ->
  (forall q, In q ps -> IProduct.id q <> "") ->
  In p ps ->
  matchProduct ex p = None ->
  result (execute request s) =
  inl (mkAppError (nonExistentMessage (nonExistentProducts (validate ex ps)))).
Proof.
  intros ps ex Hcustomer Hids Hp Hm. subst ps ex.
  assert (Hfirst :
            truthy (Tally.first
                      (nonExistentProducts
                         (validate (fst (fetch_products request s))
                                   (IRequest.products request)))) = true).
  { destruct (validate_first_is_last_offender
                (fst (fetch_products request s))
                (IRequest.products request)) as [-> _].
    assert (Hin : In p (filter (is_missing (fst (fetch_products request s)))
                               (IRequest.products request))).
    { apply filter_In. split; [exact Hp|]. unfold is_missing.
      rewrite Hm. reflexivity. }
    apply in_rev in Hin.
    destruct (rev _) as [|q qs] eqn:Hrev; [contradiction|].
    assert (Hq : In q (IRequest.products request)).
    { assert (Hq' : In q (q :: qs)) by (left; reflexivity).
      rewrite <- Hrev in Hq'. apply in_rev in Hq'.
      apply filter_In in Hq'. tauto. }
    cbn. apply Hids in Hq. apply String.eqb_neq in Hq. rewrite Hq.
    reflexivity. }
  pose proof (execute_run request s) as Hrun. cbn zeta in Hrun.
  rewrite Hrun, Hcustomer, Hfirst. clear Hrun.
  destruct (IRequest.products request); [contradiction|]. reflexivity.
Qed.

(** C2: whenever [execute] throws, its trace holds no [create] and no
    [updateQuantity] call, the store is the one the look-ups left, and the
    error is one of the four the service raises. *)
Theorem failure_writes_nothing (request : IRequest.t) (s : St)
        (e : AppError) :
  result (execute request s) = inl e ->
  filter is_write (calls (execute request s)) = [] /\
  (forall customer lines,
      ~ In (CallCreate customer lines) (calls (execute request s))) /\
  (forall us, ~ In (CallUpdateQuantity us) (calls (execute request s))) /\
  (store (execute request s) = snd (lookup_customer request s) \/
   store (execute request s) = snd (fetch_products request s)) /\
  (let v := validate (fst (fetch_products request s))
                     (IRequest.products request) in
   e = mkAppError "Customer not found." \/
   e = mkAppError "Less than one product to create an order." \/
   e = mkAppError (nonExistentMessage (nonExistentProducts v)) \/
   e = mkAppError (invalidQuantityMessage (invalidQuantityProducts v))).
Proof.
  intros He. cbn zeta.
  run_cases request s; cbn [result store calls filter is_write In] in *;
    try discriminate He; injection He as <-;
    (split; [reflexivity|]);
    (split; [intros c l Hin; intuition discriminate|]);
    (split; [intros us Hin; intuition discriminate|]);
    split; auto.
Qed.

(** C7: an unknown customer makes [execute] throw "Customer not found."
    after the single [findById] call, whatever the requested products are
    (empty or not), so before the emptiness test and with no write; with a
    known customer and no products it throws the empty-order error after that
    same single call, so before any [findAllById]. *)
Theorem customer_checked_first (request : IRequest.t) (s : St) :
  (fst (lookup_customer request s) = None ->
   execute request s =
   mkRun (inl (mkAppError "Customer not found."))
         (snd (lookup_customer request s))
         [CallFindById (IRequest.customer_id request)]) /\
  (forall customer,
      fst (lookup_customer request s) = Some customer ->
      IRequest.products request = [] ->
      execute request s =
      mkRun (inl (mkAppError "Less than one product to create an order."))
            (snd (lookup_customer request s))
            [CallFindById (IRequest.customer_id request)]).
Proof.
  pose proof (execute_run request s) as Hrun. cbn zeta in Hrun.
  split.
  - intros Hnone. rewrite Hrun, Hnone. reflexivity.
  - intros customer Hsome Hempty. rewrite Hrun, Hsome, Hempty. reflexivity.
Qed.

(** C8 (amended): with integer quantities in the request and in the catalog,
    every stock update [execute] computes and hands to [updateQuantity] has
    a non-negative quantity, because a line is accepted only when its
    quantity does not exceed the fetched one; hence the in-order bulk update
    keeps a catalog of non-negative quantities non-negative. *)
Theorem stock_updates_nonnegative (request : IRequest.t) (s : St)
        (us : list (Product.t Price Attrs)) :
  In (CallUpdateQuantity us) (calls (execute request s)) ->
  Forall (fun u => 0 <= Product.quantity u) us /\
  (forall catalog,
      Forall (fun p => 0 <= Product.quantity p) catalog ->
      Forall (fun p => 0 <= Product.quantity p) (apply_updates us catalog)).
Proof.
  intros Hcall. apply execute_update_call in Hcall. subst us.
  assert (Hus : Forall (fun u : Product.t Price Attrs =>
                          0 <= Product.quantity u)
                       (productsToUpdate
                          (validate (fst (fetch_products request s))
                                    (IRequest.products request)))).
  { apply Forall_forall. intros u Hu.
    rewrite validate_stock_updates in Hu. apply In_stock_updates in Hu.
    destruct Hu as (p & m & _ & _ & Hle & ->). cbn. lia. }
  split; [exact Hus|]. apply apply_updates_nonneg. exact Hus.
Qed.

(** C10: every record handed to [updateQuantity] is a fetched product,
    matched by a requested line, with its quantity replaced and its id,
    price and remaining attributes as fetched. *)
Theorem stock_update_keeps_other_fields (request : IRequest.t) (s : St)
        (us : list (Product.t Price Attrs)) (u : Product.t Price Attrs) :
  In (CallUpdateQuantity us) (calls (execute request s)) ->
  In u us ->
  exists p m,
    In p (IRequest.products request) /\
    In m (fst (fetch_products request s)) /\
    matchProduct (fst (fetch_products request s)) p = Some m /\
    u = Product.mk (Product.id m) (Product.price m)
                   (Product.quantity m - IProduct.quantity p)
                   (Product.rest m) /\
    Product.id u = Product.id m /\
    Product.price u = Product.price m /\
    Product.rest u = Product.rest m.
Proof.
  intros Hcall Hu. apply execute_update_call in Hcall. subst us.
  rewrite validate_stock_updates in Hu. apply In_stock_updates in Hu.
  destruct Hu as (p & m & Hp & Hm & _ & ->).
  exists p, m. destruct (matchProduct_Some _ _ Hm) as [Hin _].
  repeat split; assumption.
Qed.

End ServiceFacts.

(** * The service over the in-memory repositories *)

Section Scenario.
Import InMemory.

Local Open Scope Q_scope.
Local Open Scope Z_scope.

(** C1: when the customer is known, the request is not empty and every line
    matches a fetched product without exceeding its quantity, [execute]
    makes exactly four calls: the two look-ups, [create] with the customer
    and one sanitized line per requested line (same id and quantity, price of
    the matching fetched product), and [updateQuantity] with one update per
    requested line (the matching fetched product with its quantity minus the
    requested one); it returns the order [create] yields.  In the scenario of
    the specification the order lines are [{P1,3,10.0}; {P2,2,3.0}] and the
    stock updates set [P1] to 2 and [P2] to 0. *)
Theorem execute_success :
  (forall (Price Attrs Customer Order St : Type)
          (customersRepository : @ICustomersRepository Customer St)
          (productsRepository : @IProductsRepository Price Attrs St)
          (ordersRepository : @IOrdersRepository Price Customer Order St)
          (request : IRequest.t) (s : St) (customer : Customer),
      let ps := IRequest.products request in
      let ex := fst (fetch_products request s) in
      let s2 := snd (fetch_products request s) in
      fst (lookup_customer request s) = Some customer ->
      ps <> [] ->
      (forall p, In p ps ->
         exists m, matchProduct ex p = Some m /\
                   IProduct.quantity p <= Product.quantity m) ->
      exists lines updates,
        Forall2 (fun p l =>
                   exists m, matchProduct ex p = Some m /\
                             l = OrderProduct.mk (IProduct.id p)
                                                 (IProduct.quantity p)
                                                 (Product.price m))
                ps lines /\
        Forall2 (fun p u =>
                   exists m, matchProduct ex p = Some m /\
                             u = Product.with_quantity m
                                   (Product.quantity m - IProduct.quantity p))
                ps updates /\
        execute request s =
        mkRun (inr (fst (create customer lines s2)))
              (updateQuantity updates (snd (create customer lines s2)))
              [CallFindById (IRequest.customer_id request);
               CallFindAllById ps;
               CallCreate customer lines;
               CallUpdateQuantity updates]) /\
  (let lines := [OrderProduct.mk "P1" 3 (10 # 1); OrderProduct.mk "P2" 2 (3 # 1)] in
   let updates := [Product.mk "P1" (10 # 1) 2 "first product";
                   Product.mk "P2" (3 # 1) 0 "second product"] in
   let request := order_for "C1" [line "P1" 3; line "P2" 2] in
   execute request shop =
   mkRun (inr (mkOrder C1 lines))
         (mkStore [C1] updates [mkOrder C1 lines])
         [CallFindById "C1";
          CallFindAllById [line "P1" 3; line "P2" 2];
          CallCreate C1 lines;
          CallUpdateQuantity updates]).
Proof.
  split.
  - intros. apply execute_accepts; assumption.
  - reflexivity.
Qed.

Lemma execute_success_witness :
  let request := order_for "C1" [line "P1" 3; line "P2" 2] in
  let ps := IRequest.products request in
  let ex := fst (fetch_products request shop) in
  let s2 := snd (fetch_products request shop) in
  fst (lookup_customer request shop) = Some C1 /\
  ps <> [] /\
  (forall p, In p ps ->
     exists m, matchProduct ex p = Some m /\
               IProduct.quantity p <= Product.quantity m) /\
  exists lines updates,
    Forall2 (fun p l =>
               exists m, matchProduct ex p = Some m /\
                         l = OrderProduct.mk (IProduct.id p)
                                             (IProduct.quantity p)
                                             (Product.price m))
            ps lines /\
    Forall2 (fun p u =>
               exists m, matchProduct ex p = Some m /\
                         u = Product.with_quantity m
                               (Product.quantity m - IProduct.quantity p))
            ps updates /\
    execute request shop =
    mkRun (inr (fst (create C1 lines s2)))
          (updateQuantity updates (snd (create C1 lines s2)))
          [CallFindById "C1"; CallFindAllById ps;
           CallCreate C1 lines; CallUpdateQuantity updates].
Proof.
  cbn zeta.
  assert (Hall : forall p,
             In p [line "P1" 3; line "P2" 2] ->
             exists m,
               matchProduct
                 (fst (fetch_products
                         (order_for "C1" [line "P1" 3; line "P2" 2]) shop)) p
               = Some m /\
               IProduct.quantity p <= Product.quantity m).
  { intros p [<-|[<-|[]]].
    - exists P1. split; [reflexivity | cbn; lia].
    - exists P2. split; [reflexivity | cbn; lia]. }
  split; [reflexivity|]. split; [discriminate|]. split; [exact Hall|].
  apply (proj1 execute_success Q string Customer Order Store _ _ _
               (order_for "C1" [line "P1" 3; line "P2" 2]) shop C1).
  - reflexivity.
  - discriminate.
  - exact Hall.
Defined.

Lemma failure_writes_nothing_witness :
  let request := order_for "C1" [line "P1" 3; line "P2" 5] in
  let e := mkAppError
             "The given quantity for the product 'P2' is not available." in
  result (execute request shop) = inl e /\
  filter is_write (calls (execute request shop)) = [] /\
  (forall customer lines,
      ~ In (CallCreate customer lines) (calls (execute request shop))) /\
  (forall us, ~ In (CallUpdateQuantity us) (calls (execute request shop))) /\
  (store (execute request shop) = snd (lookup_customer request shop) \/
   store (execute request shop) = snd (fetch_products request shop)) /\
  (let v := validate (fst (fetch_products request shop))
                     (IRequest.products request) in
   e = mkAppError "Customer not found." \/
   e = mkAppError "Less than one product to create an order." \/
   e = mkAppError (nonExistentMessage (nonExistentProducts v)) \/
   e = mkAppError (invalidQuantityMessage (invalidQuantityProducts v))).
Proof.
  cbn zeta. split; [reflexivity|].
  apply (@failure_writes_nothing Q string Customer Order Store _ _ _
           (order_for "C1" [line "P1" 3; line "P2" 5]) shop).
  reflexivity.
Defined.

Lemma validate_classifies_each_line_witness :
  ((forall m, In m [P1; P2] -> Product.id m <> "P9") /\
   reducer [P1; P2] initialValidation (line "P9" 1) =
   mkValidation (Tally.mk (Some "P9") 1) (Tally.mk None 0) [] []) /\
  ([P1; P2] = ([P1] ++ P2 :: [])%list /\
   (forall m', In m' [P1] -> Product.id m' <> "P2") /\
   Product.id P2 = "P2" /\
   IProduct.quantity (line "P2" 5) > Product.quantity P2 /\
   reducer [P1; P2] initialValidation (line "P2" 5) =
   mkValidation (Tally.mk None 0) (Tally.mk (Some "P2") 1) [] []) /\
  (IProduct.quantity (line "P2" 2) <= Product.quantity P2 /\
   reducer [P1; P2] initialValidation (line "P2" 2) =
   mkValidation (Tally.mk None 0) (Tally.mk None 0)
                [OrderProduct.mk "P2" 2 (3 # 1)]
                [Product.mk "P2" (3 # 1) 0 "second product"]).
Proof.
  assert (Habsent : forall m : Product,
             In m [P1; P2] -> Product.id m <> "P9").
  { intros m [<-|[<-|[]]]; discriminate. }
  assert (Hbefore : forall m' : Product,
             In m' [P1] -> Product.id m' <> "P2").
  { intros m' [<-|[]]; discriminate. }
  assert (Hgt : IProduct.quantity (line "P2" 5) > Product.quantity P2)
    by (cbn; lia).
  assert (Hle : IProduct.quantity (line "P2" 2) <= Product.quantity P2)
    by (cbn; lia).
  destruct (validate_classifies_each_line [P1; P2] [line "P2" 2])
    as (Hmissing & Hexceeds & Haccept & _).
  exact (conj
           (conj Habsent (Hmissing initialValidation (line "P9" 1) Habsent))
           (conj
              (conj eq_refl
                 (conj Hbefore
                    (conj eq_refl
                       (conj Hgt
                          (Hexceeds initialValidation (line "P2" 5)
                                    [P1] P2 [] eq_refl Hbefore eq_refl
                                    Hgt)))))
              (conj Hle
                 (Haccept initialValidation (line "P2" 2)
                          [P1] P2 [] eq_refl Hbefore eq_refl Hle)))).
Defined.

Lemma duplicate_lines_not_cumulative_witness :
  let a := line "P1" 1 in
  let b := line "P1" 2 in
  let updates := productsToUpdate (validate [P1; P2] [a; b]) in
  IProduct.id a = IProduct.id b /\
  matchProduct [P1; P2] a = Some P1 /\
  IProduct.quantity a <= Product.quantity P1 /\
  IProduct.quantity b <= Product.quantity P1 /\
  updates = [Product.with_quantity P1 4; Product.with_quantity P1 3] /\
  ((forall c, In c [] -> IProduct.id c <> IProduct.id b) ->
   forall catalog p,
     In p (apply_updates updates catalog) ->
     Product.id p = "P1" -> Product.quantity p = 3).
Proof.
  cbn zeta.
  split; [reflexivity|]. split; [reflexivity|].
  split; [cbn; lia|]. split; [cbn; lia|].
  apply (@duplicate_lines_not_cumulative Q string [P1; P2] [] [] []
           (line "P1" 1) (line "P1" 2) P1).
  - reflexivity.
  - reflexivity.
  - cbn. lia.
  - cbn. lia.
Defined.

Lemma customer_checked_first_witness :
  fst (lookup_customer (order_for "C0" []) shop) = None /\
  execute (order_for "C0" []) shop =
  mkRun (inl (mkAppError "Customer not found.")) shop [CallFindById "C0"] /\
  fst (lookup_customer (order_for "C1" []) shop) = Some C1 /\
  execute (order_for "C1" []) shop =
  mkRun (inl (mkAppError "Less than one product to create an order."))
        shop [CallFindById "C1"].
Proof.
  split; [reflexivity|]. split.
  - exact (proj1 (customer_checked_first (order_for "C0" []) shop) eq_refl).
  - split; [reflexivity|].
    exact (proj2 (customer_checked_first (order_for "C1" []) shop) C1
                 eq_refl eq_refl).
Defined.

Lemma stock_updates_nonnegative_witness :
  let request := order_for "C1" [line "P1" 3; line "P2" 2] in
  let us := [Product.with_quantity P1 2; Product.with_quantity P2 0] in
  In (CallUpdateQuantity us) (calls (execute request shop)) /\
  Forall (fun u => 0 <= Product.quantity u) us /\
  (forall catalog : list Product,
      Forall (fun p => 0 <= Product.quantity p) catalog ->
      Forall (fun p => 0 <= Product.quantity p) (apply_updates us catalog)).
Proof.
  cbn zeta.
  assert (Hcall :
            In (CallUpdateQuantity
                  [Product.with_quantity P1 2; Product.with_quantity P2 0])
               (calls (execute (order_for "C1" [line "P1" 3; line "P2" 2])
                               shop))).
  { right. right. right. left. reflexivity. }
  split; [exact Hcall|].
  exact (@stock_updates_nonnegative Q string Customer Order Store
           _ _ _ _ _ _ Hcall).
Defined.

Lemma nonpositive_quantity_is_accepted_witness :
  matchProduct [P1; P2] (line "P1" 0) = Some P1 /\
  IProduct.quantity (line "P1" 0) <= 0 /\
  0 <= Product.quantity P1 /\
  reducer [P1; P2] initialValidation (line "P1" 0) =
  mkValidation (Tally.mk None 0) (Tally.mk None 0)
               [OrderProduct.mk "P1" 0 (10 # 1)]
               [Product.with_quantity P1 5] /\
  exceeds_stock [P1; P2] (line "P1" 0) = false /\
  Product.quantity P1 <= Product.quantity P1 - 0.
Proof.
  split; [reflexivity|]. split; [cbn; lia|]. split; [cbn; lia|].
  apply (@nonpositive_quantity_is_accepted Q string [P1; P2]
           initialValidation (line "P1" 0) P1).
  - reflexivity.
  - cbn. lia.
  - cbn. lia.
Defined.

Lemma stock_update_keeps_other_fields_witness :
  let request := order_for "C1" [line "P1" 3; line "P2" 2] in
  let us := [Product.with_quantity P1 2; Product.with_quantity P2 0] in
  let u := Product.with_quantity P2 0 in
  In (CallUpdateQuantity us) (calls (execute request shop)) /\
  In u us /\
  exists p m,
    In p (IRequest.products request) /\
    In m (fst (fetch_products request shop)) /\
    matchProduct (fst (fetch_products request shop)) p = Some m /\
    u = Product.mk (Product.id m) (Product.price m)
                   (Product.quantity m - IProduct.quantity p)
                   (Product.rest m) /\
    Product.id u = Product.id m /\
    Product.price u = Product.price m /\
    Product.rest u = Product.rest m.
Proof.
  cbn zeta.
  assert (Hcall :
            In (CallUpdateQuantity
                  [Product.with_quantity P1 2; Product.with_quantity P2 0])
               (calls (execute (order_for "C1" [line "P1" 3; line "P2" 2])
                               shop))).
  { right. right. right. left. reflexivity. }
  assert (Hu : In (Product.with_quantity P2 0)
                  [Product.with_quantity P1 2; Product.with_quantity P2 0]).
  { right. left. reflexivity. }
  split; [exact Hcall|]. split; [exact Hu|].
  exact (@stock_update_keeps_other_fields Q string Customer Order Store
           _ _ _ _ _ _ _ Hcall Hu).
Defined.

(** C3: with two missing products [P8] and [P9], requested in that order,
    the product-not-found message names [P9], the one met last, and counts
    one other; with two lines exceeding the stock, [P1] then [P2], the
    insufficient-quantity message names [P2] and counts one other. *)
Theorem reported_offender_is_the_last_one :
  nonExistentProducts (validate [P1; P2] [line "P8" 1; line "P9" 1]) =
  Tally.mk (Some "P9") 2 /\
  invalidQuantityProducts (validate [P1; P2] [line "P1" 9; line "P2" 9]) =
  Tally.mk (Some "P2") 2 /\
  result (execute (order_for "C1" [line "P8" 1; line "P9" 1]) shop) =
  inl (mkAppError "Could not find product_id 'P9' and others (1) products.") /\
  result (execute (order_for "C1" [line "P1" 9; line "P2" 9]) shop) =
  inl (mkAppError
         ("The given quantity for the product 'P2' is not available." ++
          " Another (1) products also exceed the quantity available.")).
Proof. repeat split. Qed.

(** C4: a request whose first line asks for a product with the empty id,
    absent from the catalog, and whose second line asks for more [P2] than
    is in stock: [execute] throws the insufficient-quantity error, not the
    product-not-found one. *)
Theorem empty_id_hides_missing_product :
  matchProduct [P1; P2] (line "" 1) = None /\
  matchProduct [P1; P2] (line "P2" 5) = Some P2 /\
  Product.quantity P2 < IProduct.quantity (line "P2" 5) /\
  nonExistentProducts (validate [P1; P2] [line "" 1; line "P2" 5]) =
  Tally.mk (Some "") 1 /\
  result (execute (order_for "C1" [line "" 1; line "P2" 5]) shop) =
  inl (mkAppError "The given quantity for the product 'P2' is not available.").
Proof. repeat split. Qed.

(** C9, as stated, fails: a line asking for zero units of [P1], which is in
    the catalog with 5 in stock, is tallied nowhere and is accepted, and the
    order is created with it. *)
Lemma zero_quantity_line_is_accepted :
  matchProduct [P1; P2] (line "P1" 0) = Some P1 /\
  (IProduct.quantity (line "P1" 0) <=? 0) = true /\
  exceeds_stock [P1; P2] (line "P1" 0) = false /\
  validate [P1; P2] [line "P1" 0] =
  mkValidation (Tally.mk None 0) (Tally.mk None 0)
               [OrderProduct.mk "P1" 0 (10 # 1)]
               [Product.with_quantity P1 5] /\
  result (execute (order_for "C1" [line "P1" 0]) shop) =
  inr (mkOrder C1 [OrderProduct.mk "P1" 0 (10 # 1)]).
Proof. repeat split. Qed.

(** C8, as stated, fails once quantities are JavaScript numbers: against a
    catalog entry with 5 in stock, a line whose quantity is NaN passes the
    quantity test ([NaN > 5] is false), is tallied nowhere, and yields a
    stock update whose quantity is [5 - NaN], that is NaN, which is not
    [>= 0]. *)
Lemma nan_quantity_gives_nan_stock :
  JsNumber.gt (JsNumber.IProduct.quantity JsNumber.nan_line)
              (JsNumber.Product.quantity JsNumber.P1) = false /\
  PrimFloat.leb PrimFloat.zero (JsNumber.Product.quantity JsNumber.P1)
  = true /\
  JsNumber.invalidQuantityProducts
    (JsNumber.validate [JsNumber.P1] [JsNumber.nan_line]) = Tally.mk None 0 /\
  JsNumber.productsToUpdate
    (JsNumber.validate [JsNumber.P1] [JsNumber.nan_line]) =
  [JsNumber.Product.with_quantity JsNumber.P1 PrimFloat.nan] /\
  forallb JsNumber.nonnegative
          (JsNumber.productsToUpdate
             (JsNumber.validate [JsNumber.P1] [JsNumber.nan_line])) = false.
Proof. repeat split. Qed.

End Scenario.

(** * Further properties of the reduction *)

Section ValidationOrder.
Context {Price Attrs : Type}.
Variable existingProducts : list (Product.t Price Attrs).


(** A tally whose last recorded line is [l]. *)
Lemma tally_after_last (t : Tally.t) (front : list IProduct.t)
      (l : IProduct.t) :
  tally_after t (front ++ [l]) =
  Tally.mk (Some (IProduct.id l))
           (Tally.quantity t + Z.of_nat (length front) + 1).
Proof.
  unfold tally_after. rewrite map_app, fold_left_app. cbn [map fold_left].
  unfold record_offender at 1. f_equal.
  fold (tally_after t front). rewrite tally_after_quantity. reflexivity.
Qed.




(** X7: the sanitized lines and the stock updates follow the accepted lines
    of the request in request order: same product ids, same quantities on
    the sanitized lines, and the i-th update carries the id of the i-th
    sanitized line. *)
Theorem accepted_lines_keep_request_order (ps : list IProduct.t) :
  let v := validate existingProducts ps in
  let accepted := filter (is_accepted existingProducts) ps in
  map (@OrderProduct.product_id Price) (sanitizedProducts v) =
  map IProduct.id accepted /\
  map (@OrderProduct.quantity Price) (sanitizedProducts v) =
  map IProduct.quantity accepted /\
  map (@Product.id Price Attrs) (productsToUpdate v) =
  map IProduct.id accepted.
Proof.
  cbn zeta. rewrite validate_sanitized, validate_stock_updates.
  induction ps as [|p ps (IH1 & IH2 & IH3)]; [repeat split|].
  cbn [flat_map filter]. rewrite !map_app, IH1, IH2, IH3.
  unfold sanitized_line, stock_update, is_accepted.
  destruct (matchProduct existingProducts p) as [m|] eqn:Hm;
    [|repeat split].
  destruct (IProduct.quantity p >? Product.quantity m); cbn; [repeat split|].
  destruct (matchProduct_Some existingProducts p Hm) as [_ ->].
  repeat split.
Qed.

(** X8: reducing a request cut in two gives the two reductions put
    together: the lists are appended, the counts add up, and each tally
    keeps the id recorded in the second part when there is one and that of
    the first part otherwise. *)
Theorem validate_app (ps1 ps2 : list IProduct.t) :
  let v := validate existingProducts (ps1 ++ ps2) in
  let v1 := validate existingProducts ps1 in
  let v2 := validate existingProducts ps2 in
  sanitizedProducts v = (sanitizedProducts v1 ++ sanitizedProducts v2)%list /\
  productsToUpdate v = (productsToUpdate v1 ++ productsToUpdate v2)%list /\
  Tally.quantity (nonExistentProducts v) =
    Tally.quantity (nonExistentProducts v1) +
    Tally.quantity (nonExistentProducts v2) /\
  Tally.quantity (invalidQuantityProducts v) =
    Tally.quantity (invalidQuantityProducts v1) +
    Tally.quantity (invalidQuantityProducts v2) /\
  Tally.first (nonExistentProducts v) =
    match Tally.first (nonExistentProducts v2) with
    | Some i => Some i
    | None => Tally.first (nonExistentProducts v1)
    end /\
  Tally.first (invalidQuantityProducts v) =
    match Tally.first (invalidQuantityProducts v2) with
    | Some i => Some i
    | None => Tally.first (invalidQuantityProducts v1)
    end.
Proof.
  cbn zeta.
  rewrite !validate_sanitized, !validate_stock_updates,
    !validate_nonExistent, !validate_invalidQuantity.
  rewrite !flat_map_app, !filter_app, !tally_after_quantity,
    !tally_after_first, !length_app, !rev_app_distr.
  cbn [Tally.quantity Tally.first].
  repeat match goal with |- _ /\ _ => split end;
    try reflexivity; try lia.
  - destruct (rev (filter (is_missing existingProducts) ps2)); reflexivity.
  - destruct (rev (filter (exceeds_stock existingProducts) ps2));
      reflexivity.
Qed.

End ValidationOrder.

(** The two messages for a tally of [n + 1] lines ending with id [i]. *)
Lemma nonExistentMessage_last (i : string) (n : Z) :
  0 <= n ->
  nonExistentMessage (Tally.mk (Some i) (0 + n + 1)) =
  "Could not find product_id '" ++ i ++ "'" ++
  (if n >? 0
   then " and others (" ++ number_to_string n ++ ") products."
   else ".").
Proof.
  intros Hn. unfold nonExistentMessage.
  cbn [Tally.first Tally.quantity interpolate].
  replace (0 + n + 1 - 1) with n by lia.
  rewrite !Z.gtb_ltb.
  destruct (Z.ltb_spec 1 (0 + n + 1)), (Z.ltb_spec 0 n);
    try lia; reflexivity.
Qed.

Lemma invalidQuantityMessage_last (i : string) (n : Z) :
  0 <= n ->
  invalidQuantityMessage (Tally.mk (Some i) (0 + n + 1)) =
  "The given quantity for the product '" ++ i ++ "' is not available." ++
  (if n >? 0
   then " Another (" ++ number_to_string n ++
        ") products also exceed the quantity available."
   else "").
Proof.
  intros Hn. unfold invalidQuantityMessage.
  cbn [Tally.first Tally.quantity interpolate].
  replace (0 + n + 1 - 1) with n by lia.
  rewrite !Z.gtb_ltb.
  destruct (Z.ltb_spec 1 (0 + n + 1)), (Z.ltb_spec 0 n);
    try lia; reflexivity.
Qed.

(** * Further properties of [execute] *)

Section ServiceOrder.
Context {Price Attrs Customer Order St : Type}.
Context {customersRepository : @ICustomersRepository Customer St}
        {productsRepository : @IProductsRepository Price Attrs St}
        {ordersRepository : @IOrdersRepository Price Customer Order St}.


(** X2: with a known customer, when the requested lines without a fetched
    product end with a line of non-empty id, [execute] throws the
    product-not-found error after the two look-ups; the message names the id
    of that last line and, when other lines are missing too, their number. *)
Theorem product_not_found_names_last_missing
        (request : IRequest.t) (s : St) (customer : Customer)
        (front : list IProduct.t) (l : IProduct.t) :
  let ps := IRequest.products request in
  let ex := fst (fetch_products request s) in
  fst (lookup_customer request s) = Some customer ->
  filter (is_missing ex) ps = (front ++ [l])%list ->
  IProduct.id l <> "" ->
  execute request s =
  mkRun (inl (mkAppError
                ("Could not find product_id '" ++ IProduct.id l ++ "'" ++
                 (if Z.of_nat (length front) >? 0
                  then " and others (" ++
                       number_to_string (Z.of_nat (length front)) ++
                       ") products."
                  else "."))))
        (snd (fetch_products request s))
        [CallFindById (IRequest.customer_id request); CallFindAllById ps].
Proof.
  intros ps ex Hcustomer Hfilter Hid. subst ps ex.
  assert (Hne : IRequest.products request <> []).
  { intros E. rewrite E in Hfilter. destruct front; discriminate Hfilter. }
  pose proof (execute_run request s) as Hrun. cbn zeta in Hrun.
  rewrite Hrun, Hcustomer, validate_nonExistent, Hfilter, tally_after_last.
  clear Hrun. cbn [Tally.first Tally.quantity truthy].
  apply String.eqb_neq in Hid. rewrite Hid. cbn [negb].
  rewrite nonExistentMessage_last by lia.
  destruct (IRequest.products request); [congruence|]. reflexivity.
Qed.

(** X3: with a known customer and every requested line matching a fetched
    product, when the lines exceeding the fetched quantity end with a line of
    non-empty id, [execute] throws the quantity error after the two
    look-ups; the message names the id of that last line and, when other
    lines exceed too, their number. *)
Theorem quantity_error_names_last_exceeding
        (request : IRequest.t) (s : St) (customer : Customer)
        (front : list IProduct.t) (l : IProduct.t) :
  let ps := IRequest.products request in
  let ex := fst (fetch_products request s) in
  fst (lookup_customer request s) = Some customer ->
  filter (is_missing ex) ps = [] ->
  filter (exceeds_stock ex) ps = (front ++ [l])%list ->
  IProduct.id l <> "" ->
  execute request s =
  mkRun (inl (mkAppError
                ("The given quantity for the product '" ++ IProduct.id l ++
                 "' is not available." ++
                 (if Z.of_nat (length front) >? 0
                  then " Another (" ++
                       number_to_string (Z.of_nat (length front)) ++
                       ") products also exceed the quantity available."
                  else ""))))
        (snd (fetch_products request s))
        [CallFindById (IRequest.customer_id request); CallFindAllById ps].
Proof.
  intros ps ex Hcustomer Hmissing Hfilter Hid. subst ps ex.
  assert (Hne : IRequest.products request <> []).
  { intros E. rewrite E in Hfilter. destruct front; discriminate Hfilter. }
  pose proof (execute_run request s) as Hrun. cbn zeta in Hrun.
  rewrite Hrun, Hcustomer, validate_nonExistent, validate_invalidQuantity,
    Hmissing, Hfilter, tally_after_last.
  clear Hrun. cbn [tally_after map fold_left Tally.first Tally.quantity truthy].
  apply String.eqb_neq in Hid. rewrite Hid. cbn [negb].
  rewrite invalidQuantityMessage_last by lia.
  destruct (IRequest.products request); [congruence|]. reflexivity.
Qed.




End ServiceOrder.

(** * The further properties over the in-memory repositories *)

Section ScenarioOrder.
Import InMemory.

Local Open Scope Q_scope.
Local Open Scope Z_scope.

Lemma product_not_found_names_last_missing_witness :
  let request := order_for "C1" [line "P8" 1; line "P1" 1; line "P9" 1] in
  fst (lookup_customer request shop) = Some C1 /\
  filter (is_missing (fst (fetch_products request shop)))
         (IRequest.products request) = [line "P8" 1; line "P9" 1] /\
  execute request shop =
  mkRun (inl (mkAppError
                "Could not find product_id 'P9' and others (1) products."))
        shop
        [CallFindById "C1";
         CallFindAllById [line "P8" 1; line "P1" 1; line "P9" 1]].
Proof.
  cbn zeta. split; [reflexivity|]. split; [reflexivity|].
  assert (Hid : IProduct.id (line "P9" 1) <> "") by discriminate.
  exact (@product_not_found_names_last_missing Q string Customer Order Store
           _ _ _
           (order_for "C1" [line "P8" 1; line "P1" 1; line "P9" 1]) shop C1
           [line "P8" 1] (line "P9" 1) eq_refl eq_refl Hid).
Defined.

Lemma quantity_error_names_last_exceeding_witness :
  let request := order_for "C1" [line "P1" 9; line "P2" 1; line "P2" 3] in
  fst (lookup_customer request shop) = Some C1 /\
  filter (is_missing (fst (fetch_products request shop)))
         (IRequest.products request) = [] /\
  filter (exceeds_stock (fst (fetch_products request shop)))
         (IRequest.products request) = [line "P1" 9; line "P2" 3] /\
  execute request shop =
  mkRun (inl (mkAppError
                ("The given quantity for the product 'P2' is not available." ++
                 " Another (1) products also exceed the quantity available.")))
        shop
        [CallFindById "C1";
         CallFindAllById [line "P1" 9; line "P2" 1; line "P2" 3]].
Proof.
  cbn zeta. split; [reflexivity|]. split; [reflexivity|].
  split; [reflexivity|].
  assert (Hid : IProduct.id (line "P2" 3) <> "") by discriminate.
  exact (@quantity_error_names_last_exceeding Q string Customer Order Store
           _ _ _
           (order_for "C1" [line "P1" 9; line "P2" 1; line "P2" 3]) shop C1
           [line "P1" 9] (line "P2" 3) eq_refl eq_refl eq_refl Hid).
Defined.

Lemma missing_product_throws_witness :
  let request := order_for "C1" [line "P2" 5; line "P9" 3] in
  fst (lookup_customer request shop) = Some C1 /\
  (forall q, In q (IRequest.products request) -> IProduct.id q <> "") /\
  In (line "P9" 3) (IRequest.products request) /\
  matchProduct (fst (fetch_products request shop)) (line "P9" 3) = None /\
  exceeds_stock (fst (fetch_products request shop)) (line "P2" 5) = true /\
  result (execute request shop) =
  inl (mkAppError "Could not find product_id 'P9'.").
Proof.
  cbn zeta.
  assert (Hids : forall q,
             In q (IRequest.products
                     (order_for "C1" [line "P2" 5; line "P9" 3])) ->
             IProduct.id q <> "").
  { intros q [<-|[<-|[]]]; discriminate. }
  assert (Hin : In (line "P9" 3)
                   (IRequest.products
                      (order_for "C1" [line "P2" 5; line "P9" 3]))).
  { right. left. reflexivity. }
  split; [reflexivity|]. split; [exact Hids|]. split; [exact Hin|].
  split; [reflexivity|]. split; [reflexivity|].
  exact (@missing_product_throws Q string Customer Order Store _ _ _
           (order_for "C1" [line "P2" 5; line "P9" 3]) shop C1 (line "P9" 3)
           eq_refl Hids Hin eq_refl).
Defined.




End ScenarioOrder.
